(** * ldproxy_api_scaffold.api: the configuration orchestrator

    A shallow embedding of [LDProxyConfigGenerator] (api.py).  The class is a
    thin driver over four collaborators that live in other modules of the
    package: [DatabaseClient] (utils/db.py) and the three generators
    [ApiService], [SQLProvider] and [TileProvider] (generators/).  The driver
    is embedded over an interface of those collaborators; every call it makes
    is recorded in a call log so that the order and the arguments of the calls
    can be stated. *)

From stdpp Require Import base strings list gmap.

(** ** Collaborators

    Python calls may have side effects and may raise.  A call is a function on
    the outside world (database, connection pool, file system, object heap)
    that returns either the raised exception or the returned value, together
    with the world it leaves behind.  The world left by a raising call is kept:
    Python undoes nothing when an exception propagates. *)

Class Collaborators : Type := {
  World : Type;
  Exn : Type;
  (* utils/db.py *)
  DatabaseClient : Type;
  Engine : Type;
  TableConfig : Type;
  DbConfig : Type;
  DatabaseClient_init : string -> string -> World -> (Exn + DatabaseClient) * World;
  get_schema_tables : DatabaseClient -> World -> (Exn + list string) * World;
  create_table_config :
    DatabaseClient -> list string -> World -> (Exn + TableConfig) * World;
  engine : DatabaseClient -> Engine;
  DatabaseClient_dispose_engine : DatabaseClient -> World -> (Exn + unit) * World;
  (* generators/api_service.py *)
  ApiService : Type;
  ApiService_init :
    string -> TableConfig -> list string -> World -> (Exn + ApiService) * World;
  ApiService_create_yaml : ApiService -> string -> World -> (Exn + unit) * World;
  (* generators/sql_provider.py *)
  SQLProvider : Type;
  SQLProvider_init :
    string -> string -> TableConfig -> Engine -> option DbConfig -> bool ->
    World -> (Exn + SQLProvider) * World;
  SQLProvider_create_yaml : SQLProvider -> string -> World -> (Exn + unit) * World;
  (* generators/tile_provider.py *)
  TileProvider : Type;
  TileProvider_init : string -> TableConfig -> World -> (Exn + TileProvider) * World;
  TileProvider_create_yaml : TileProvider -> string -> World -> (Exn + unit) * World
}.

Section Orchestrator.
Context `{C : Collaborators}.

(** ** Call log *)

Inductive Call : Type :=
| CDatabaseClient (db_conn_str schema_name : string)
| CGetSchemaTables (db : DatabaseClient)
| CCreateTableConfig (db : DatabaseClient) (tables : list string)
| CApiService (service_id : string) (table_config : TableConfig)
    (api_blocks : list string)
| CSQLProvider (service_id force_axis_order : string) (table_config : TableConfig)
    (eng : Engine) (db_config : option DbConfig) (docker : bool)
| CTileProvider (service_id : string) (table_config : TableConfig)
| CServiceYaml (obj : ApiService) (export_dir : string)
| CProviderYaml (obj : SQLProvider) (export_dir : string)
| CTileYaml (obj : TileProvider) (export_dir : string)
| CDisposeEngine (db : DatabaseClient).

(** A document-production call is one of the three [create_yaml] calls. *)
Definition is_create_yaml (c : Call) : bool :=
  match c with
  | CServiceYaml _ _ | CProviderYaml _ _ | CTileYaml _ _ => true
  | _ => false
  end.

Record State : Type := mkState { world : World; calls : list Call }.

(** ** The monad of Python statements: state and exceptions *)

Definition Py (A : Type) : Type := State -> (Exn + A) * State.

Definition ret {A} (a : A) : Py A := fun s => (inr a, s).

Definition bind {A B} (m : Py A) (k : A -> Py B) : Py B :=
  fun s => match m s with
           | (inl e, s') => (inl e, s')
           | (inr a, s') => k a s'
           end.

(** A call to a collaborator: logged, then run on the world. *)
Definition call {A} (c : Call) (op : World -> (Exn + A) * World) : Py A :=
  fun s => let '(r, w) := op (world s) in
           (r, {| world := w; calls := calls s ++ [c] |}).

End Orchestrator.

Declare Scope py_scope.
Delimit Scope py_scope with py.
Notation "x <- m ;; k" := (bind m (fun x => k))
  (at level 100, m at next level, right associativity) : py_scope.
Notation "m ;;; k" := (bind m (fun _ => k))
  (at level 100, right associativity) : py_scope.
Open Scope py_scope.

Section Driver.
Context `{C : Collaborators}.

(** ** [LDProxyConfigGenerator] *)

(** The attributes assigned by [__init__] before [_init_resources] runs. *)
Record Fields : Type := mkFields {
  f_service_id : string;
  f_schema_name : string;
  f_db_conn_str : string;
  f_target_tables : option (list string);
  f_api_blocks : list string;
  f_docker : bool;
  f_db_client : DatabaseClient
}.

(** The fully constructed object. *)
Record LDProxyConfigGenerator : Type := mkGenerator {
  service_id : string;
  schema_name : string;
  db_conn_str : string;
  target_tables : option (list string);
  api_blocks : list string;
  docker : bool;
  db_client : DatabaseClient;
  table_config : TableConfig;
  service_obj : ApiService;
  sql_provider_obj : SQLProvider;
  tile_provider_obj : TileProvider
}.

Definition default_api_blocks : list string :=
  ["QUERYABLES"; "CRS"; "FILTER"; "TILES"; "STYLES"; "PROJECTIONS"].

(** Python's [x or d] on an optional list: [None] and the empty list are
    falsy, every other list is truthy. *)
Definition py_or (x : option (list string)) (d : list string) : list string :=
  match x with
  | None => d
  | Some [] => d
  | Some l => l
  end.

Definition _init_resources (self : Fields) : Py LDProxyConfigGenerator :=
  let db := f_db_client self in
  ts <- (match f_target_tables self with
         | None => call (CGetSchemaTables db) (get_schema_tables db)
         | Some ts => ret ts
         end) ;;
  cfg <- call (CCreateTableConfig db ts) (create_table_config db ts) ;;
  svc <- call (CApiService (f_service_id self) cfg (f_api_blocks self))
              (ApiService_init (f_service_id self) cfg (f_api_blocks self)) ;;
  sql <- call (CSQLProvider (f_service_id self) "LON_LAT" cfg (engine db) None
                 (f_docker self))
              (SQLProvider_init (f_service_id self) "LON_LAT" cfg (engine db) None
                 (f_docker self)) ;;
  tile <- call (CTileProvider (f_service_id self) cfg)
               (TileProvider_init (f_service_id self) cfg) ;;
  ret {| service_id := f_service_id self;
         schema_name := f_schema_name self;
         db_conn_str := f_db_conn_str self;
         target_tables := Some ts;
         api_blocks := f_api_blocks self;
         docker := f_docker self;
         db_client := db;
         table_config := cfg;
         service_obj := svc;
         sql_provider_obj := sql;
         tile_provider_obj := tile |}.

Definition __init__ (service_id schema_name db_conn_str : string)
    (target_tables : option (list string)) (api_blocks : option (list string))
    (docker : bool) : Py LDProxyConfigGenerator :=
  let blocks := py_or api_blocks default_api_blocks in
  db <- call (CDatabaseClient db_conn_str schema_name)
             (DatabaseClient_init db_conn_str schema_name) ;;
  _init_resources {| f_service_id := service_id;
                     f_schema_name := schema_name;
                     f_db_conn_str := db_conn_str;
                     f_target_tables := target_tables;
                     f_api_blocks := blocks;
                     f_docker := docker;
                     f_db_client := db |}.

Definition generate_yaml_files (self : LDProxyConfigGenerator) (export_dir : string)
    : Py unit :=
  call (CServiceYaml (service_obj self) export_dir)
       (ApiService_create_yaml (service_obj self) export_dir) ;;;
  call (CProviderYaml (sql_provider_obj self) export_dir)
       (SQLProvider_create_yaml (sql_provider_obj self) export_dir) ;;;
  call (CTileYaml (tile_provider_obj self) export_dir)
       (TileProvider_create_yaml (tile_provider_obj self) export_dir).

Definition dispose_engine (self : LDProxyConfigGenerator) : Py unit :=
  call (CDisposeEngine (db_client self)) (DatabaseClient_dispose_engine (db_client self)).

(** The calls of a construction, in order.  The schema is enumerated only when
    no tables were given. *)
Definition init_calls (o : LDProxyConfigGenerator)
    (tables : option (list string)) (ts : list string) : list Call :=
  CDatabaseClient (db_conn_str o) (schema_name o)
  :: match tables with
     | None => [CGetSchemaTables (db_client o)]
     | Some _ => []
     end
  ++ [ CCreateTableConfig (db_client o) ts;
       CApiService (service_id o) (table_config o) (api_blocks o);
       CSQLProvider (service_id o) "LON_LAT" (table_config o)
         (engine (db_client o)) None (docker o);
       CTileProvider (service_id o) (table_config o) ].

(** The calls of a [generate_yaml_files], in order. *)
Definition yaml_calls (o : LDProxyConfigGenerator) (dir : string) : list Call :=
  [ CServiceYaml (service_obj o) dir;
    CProviderYaml (sql_provider_obj o) dir;
    CTileYaml (tile_provider_obj o) dir ].

(** How a [generate_yaml_files] ends: after the [n] calls that returned and,
    when it raises, the one call that raised. *)
Inductive generated (o : LDProxyConfigGenerator) (dir : string) (s : State)
    : Exn + unit -> State -> Prop :=
| gen_service_raises e w1 :
    ApiService_create_yaml (service_obj o) dir (world s) = (inl e, w1) ->
    generated o dir s (inl e)
      {| world := w1; calls := calls s ++ take 1 (yaml_calls o dir) |}
| gen_provider_raises e w1 w2 :
    ApiService_create_yaml (service_obj o) dir (world s) = (inr tt, w1) ->
    SQLProvider_create_yaml (sql_provider_obj o) dir w1 = (inl e, w2) ->
    generated o dir s (inl e)
      {| world := w2; calls := calls s ++ take 2 (yaml_calls o dir) |}
| gen_tiles_raises e w1 w2 w3 :
    ApiService_create_yaml (service_obj o) dir (world s) = (inr tt, w1) ->
    SQLProvider_create_yaml (sql_provider_obj o) dir w1 = (inr tt, w2) ->
    TileProvider_create_yaml (tile_provider_obj o) dir w2 = (inl e, w3) ->
    generated o dir s (inl e)
      {| world := w3; calls := calls s ++ yaml_calls o dir |}
| gen_returns w1 w2 w3 :
    ApiService_create_yaml (service_obj o) dir (world s) = (inr tt, w1) ->
    SQLProvider_create_yaml (sql_provider_obj o) dir w1 = (inr tt, w2) ->
    TileProvider_create_yaml (tile_provider_obj o) dir w2 = (inr tt, w3) ->
    generated o dir s (inr tt)
      {| world := w3; calls := calls s ++ yaml_calls o dir |}.

(** An observation of the world that an operation leaves as it is, whether the
    operation returns or raises. *)
Definition preserves {O A} (obs : World -> O) (op : World -> (Exn + A) * World)
    : Prop :=
  forall w, obs (snd (op w)) = obs w.

(** An observation that neither the database client nor the constructors of the
    three generators change. *)
Definition construction_preserves {O} (obs : World -> O) : Prop :=
  (forall conn schema, preserves obs (DatabaseClient_init conn schema)) /\
  (forall db, preserves obs (get_schema_tables db)) /\
  (forall db ts, preserves obs (create_table_config db ts)) /\
  (forall sid cfg blocks, preserves obs (ApiService_init sid cfg blocks)) /\
  (forall sid axis cfg eng dbc dock,
      preserves obs (SQLProvider_init sid axis cfg eng dbc dock)) /\
  (forall sid cfg, preserves obs (TileProvider_init sid cfg)).

(** The outcome of a logged call on a world, the returned value left out. *)
Definition forget {A} (r : (Exn + A) * World) : (Exn + unit) * World :=
  match r with
  | (inl e, w) => (inl e, w)
  | (inr _, w) => (inr tt, w)
  end.

Definition run_call (c : Call) (w : World) : (Exn + unit) * World :=
  match c with
  | CDatabaseClient conn schema => forget (DatabaseClient_init conn schema w)
  | CGetSchemaTables db => forget (get_schema_tables db w)
  | CCreateTableConfig db ts => forget (create_table_config db ts w)
  | CApiService sid cfg blocks => forget (ApiService_init sid cfg blocks w)
  | CSQLProvider sid axis cfg eng dbc dock =>
      forget (SQLProvider_init sid axis cfg eng dbc dock w)
  | CTileProvider sid cfg => forget (TileProvider_init sid cfg w)
  | CServiceYaml g dir => ApiService_create_yaml g dir w
  | CProviderYaml g dir => SQLProvider_create_yaml g dir w
  | CTileYaml g dir => TileProvider_create_yaml g dir w
  | CDisposeEngine db => DatabaseClient_dispose_engine db w
  end.

Definition is_dispose (c : Call) : bool :=
  match c with
  | CDisposeEngine _ => true
  | _ => false
  end.

End Driver.

(** * The collaborators, from the specification *)

Module SpecModel.

(** ** Table model (spec section 3) *)

Inductive LogicalType : Type :=
| LText | LNumeric | LBoolean | LDate
| LGeometry (subtype : string).

Record ColumnDescriptor : Type := mkColumn {
  col_name : string;
  col_type : LogicalType
}.

(** One table of the model: its columns in ordinal order, its primary key and
    its geometry column when it has one. *)
Record TableDescriptor : Type := mkTable {
  tbl_name : string;
  tbl_columns : list ColumnDescriptor;
  tbl_pk : option string;
  tbl_geometry : option string
}.

(** The model keeps the tables in insertion order. *)
Definition TableModel : Type := list TableDescriptor.

Definition model_tables (m : TableModel) : list string := map tbl_name m.

(** ** Capability flags: a closed set *)

Inductive CapabilityFlag : Type :=
| QUERYABLES | CRS | FILTER | TILES | STYLES | PROJECTIONS.

Definition flag_of_string (s : string) : option CapabilityFlag :=
  if String.eqb s "QUERYABLES" then Some QUERYABLES
  else if String.eqb s "CRS" then Some CRS
  else if String.eqb s "FILTER" then Some FILTER
  else if String.eqb s "TILES" then Some TILES
  else if String.eqb s "STYLES" then Some STYLES
  else if String.eqb s "PROJECTIONS" then Some PROJECTIONS
  else None.

Definition flag_eqb (a b : CapabilityFlag) : bool :=
  match a, b with
  | QUERYABLES, QUERYABLES | CRS, CRS | FILTER, FILTER
  | TILES, TILES | STYLES, STYLES | PROJECTIONS, PROJECTIONS => true
  | _, _ => false
  end.

Definition enabled (f : CapabilityFlag) (fs : list CapabilityFlag) : bool :=
  existsb (flag_eqb f) fs.

(** ** Errors (spec section 7) *)

Inductive Error : Type :=
| ConnectionError
| NotFoundError (missing : list string)
| UnsupportedTypeError (offender : string)
| DisposedError
| WriterError (path : string).

(** ** Documents *)

Record FeatureType : Type := mkFeatureType {
  ft_id : string;
  ft_queryables : option (list string);
  ft_crs : bool
}.

Record ServiceDoc : Type := mkServiceDoc {
  sd_id : string;
  sd_blocks : list CapabilityFlag;
  sd_feature_types : list FeatureType
}.

Record ProviderEntry : Type := mkProviderEntry {
  pe_id : string;
  pe_source_table : string;
  pe_pk : option string;
  pe_geometry : option (string * string);
  pe_properties : list (string * string)
}.

Record ProviderDoc : Type := mkProviderDoc {
  pd_id : string;
  pd_container_paths : bool;
  pd_types : list ProviderEntry
}.

Record TileDoc : Type := mkTileDoc {
  td_id : string;
  td_tilesets : list string
}.

Inductive Document : Type :=
| DService (d : ServiceDoc)
| DProvider (d : ProviderDoc)
| DTiles (d : TileDoc).

(** ** The outside world *)

(** A column as the database reports it: its native type, and the logical type
    that native type maps to, if any. *)
Record DbColumn : Type := mkDbColumn {
  dc_name : string;
  dc_native : string;
  dc_logical : option LogicalType
}.

Record DbTable : Type := mkDbTable {
  dt_name : string;
  dt_columns : list DbColumn;
  dt_pk : option string;
  dt_geometry : option string
}.

Record SWorld : Type := mkWorld {
  w_reachable : bool;
  w_schemas : list (string * list DbTable);
  w_pool_open : bool;
  w_files : gmap string Document;
  w_readonly : list string
}.

Definition set_pool (b : bool) (w : SWorld) : SWorld :=
  {| w_reachable := w_reachable w; w_schemas := w_schemas w; w_pool_open := b;
     w_files := w_files w; w_readonly := w_readonly w |}.

Definition set_files (f : gmap string Document) (w : SWorld) : SWorld :=
  {| w_reachable := w_reachable w; w_schemas := w_schemas w;
     w_pool_open := w_pool_open w; w_files := f; w_readonly := w_readonly w |}.

(** ** Metadata source (spec section 4.1) *)

Record Client : Type := mkClient { cl_conn : string; cl_schema : string }.

(** Modelled from the spec: the constructor of [DatabaseClient] (utils/db.py is
    not part of the sources at hand).  It opens the pooled connection. *)
Definition client_init (conn schema : string) (w : SWorld)
    : (Error + Client) * SWorld :=
  (inr {| cl_conn := conn; cl_schema := schema |}, set_pool true w).

Definition find_schema (schema : string) (w : SWorld) : option (list DbTable) :=
  snd <$> find (fun p => String.eqb (fst p) schema) (w_schemas w).

(** The tables of the client's schema, after the checks every metadata
    operation makes: the connection is not released, the database is reachable,
    the schema exists. *)
Definition schema_of (c : Client) (w : SWorld) : Error + list DbTable :=
  if negb (w_pool_open w) then inl DisposedError
  else if negb (w_reachable w) then inl ConnectionError
  else match find_schema (cl_schema c) w with
       | None => inl (NotFoundError [cl_schema c])
       | Some ts => inr ts
       end.

(** Modelled from the spec: [DatabaseClient.get_schema_tables], the spec's
    [listTables] (utils/db.py is not part of the sources at hand). *)
Definition list_tables (c : Client) (w : SWorld) : (Error + list string) * SWorld :=
  match schema_of c w with
  | inl e => (inl e, w)
  | inr ts => (inr (map dt_name ts), w)
  end.

Definition find_table (name : string) (ts : list DbTable) : option DbTable :=
  find (fun t => String.eqb (dt_name t) name) ts.

Definition is_missing (ts : list DbTable) (name : string) : bool :=
  match find_table name ts with
  | None => true
  | Some _ => false
  end.

Fixpoint describe_columns (table : string) (cs : list DbColumn)
    : Error + list ColumnDescriptor :=
  match cs with
  | [] => inr []
  | c :: cs' =>
      match dc_logical c with
      | None => inl (UnsupportedTypeError (table +:+ "." +:+ dc_name c))
      | Some ty =>
          match describe_columns table cs' with
          | inl e => inl e
          | inr ds => inr ({| col_name := dc_name c; col_type := ty |} :: ds)
          end
      end
  end.

Definition describe_table (t : DbTable) : Error + TableDescriptor :=
  match describe_columns (dt_name t) (dt_columns t) with
  | inl e => inl e
  | inr cs => inr {| tbl_name := dt_name t; tbl_columns := cs;
                     tbl_pk := dt_pk t; tbl_geometry := dt_geometry t |}
  end.

Fixpoint describe_tables (ts : list DbTable) (names : list string)
    : Error + TableModel :=
  match names with
  | [] => inr []
  | n :: names' =>
      match find_table n ts with
      | None => inl (NotFoundError [n])
      | Some t =>
          match describe_table t with
          | inl e => inl e
          | inr d =>
              match describe_tables ts names' with
              | inl e => inl e
              | inr m => inr (d :: m)
              end
          end
      end
  end.

(** Modelled from the spec: [DatabaseClient.create_table_config], the spec's
    [buildTableModel] (utils/db.py is not part of the sources at hand).  All the
    missing tables are reported together; every requested table that exists is
    described, in the order requested. *)
Definition build_table_model (c : Client) (names : list string) (w : SWorld)
    : (Error + TableModel) * SWorld :=
  match schema_of c w with
  | inl e => (inl e, w)
  | inr ts =>
      match List.filter (is_missing ts) names with
      | [] => (describe_tables ts names, w)
      | missing => (inl (NotFoundError missing), w)
      end
  end.

(** Modelled from the spec: [DatabaseClient.dispose_engine], the release of the
    database connection (utils/db.py is not part of the sources at hand). *)
Definition client_dispose (c : Client) (w : SWorld) : (Error + unit) * SWorld :=
  (inr tt, set_pool false w).

(** ** Identifier derivation *)

(** Modelled from the spec: the one derivation of a feature-type or tileset
    identifier from a table name, shared by the generators (generators/ is not
    part of the sources at hand).  It is the identity; the spec leaves the
    escaping of reserved words open, and none is modelled. *)
Definition derive_id (table : string) : string := table.

Definition is_geometry (t : LogicalType) : bool :=
  match t with
  | LGeometry _ => true
  | _ => false
  end.

Definition has_geometry (t : TableDescriptor) : bool :=
  match tbl_geometry t with
  | Some _ => true
  | None => false
  end.

(** ** Service document generator (spec section 4.2) *)

Record Service : Type := mkService {
  svc_id : string;
  svc_model : TableModel;
  svc_flags : list CapabilityFlag
}.

Fixpoint parse_flags (blocks : list string) : Error + list CapabilityFlag :=
  match blocks with
  | [] => inr []
  | b :: bs =>
      match flag_of_string b with
      | None => inl (UnsupportedTypeError b)
      | Some f =>
          match parse_flags bs with
          | inl e => inl e
          | inr fs => inr (f :: fs)
          end
      end
  end.

(** Modelled from the spec: the constructor of [ApiService]
    (generators/api_service.py is not part of the sources at hand).  The flags
    are a closed set, validated at construction; an unrecognized flag is an
    error that names the flag. *)
Definition service_init (sid : string) (m : TableModel) (blocks : list string)
    (w : SWorld) : (Error + Service) * SWorld :=
  match parse_flags blocks with
  | inl e => (inl e, w)
  | inr fs => (inr {| svc_id := sid; svc_model := m; svc_flags := fs |}, w)
  end.

Definition feature_type (flags : list CapabilityFlag) (t : TableDescriptor)
    : FeatureType :=
  {| ft_id := derive_id (tbl_name t);
     ft_queryables :=
       if enabled QUERYABLES flags
       then Some (map col_name
                    (List.filter (fun c => negb (is_geometry (col_type c)))
                       (tbl_columns t)))
       else None;
     ft_crs := enabled CRS flags |}.

Definition service_document (g : Service) : ServiceDoc :=
  {| sd_id := svc_id g;
     sd_blocks := svc_flags g;
     sd_feature_types := map (feature_type (svc_flags g)) (svc_model g) |}.

(** ** Data provider generator (spec section 4.3) *)

Record Provider : Type := mkProvider {
  prv_id : string;
  prv_axis_order : string;
  prv_model : TableModel;
  prv_engine : string;
  prv_docker : bool
}.

(** Modelled from the spec: the constructor of [SQLProvider]
    (generators/sql_provider.py is not part of the sources at hand). *)
Definition provider_init (sid axis : string) (m : TableModel) (eng : string)
    (db_config : option unit) (docker : bool) (w : SWorld)
    : (Error + Provider) * SWorld :=
  (inr {| prv_id := sid; prv_axis_order := axis; prv_model := m;
          prv_engine := eng; prv_docker := docker |}, w).

Definition property_type (t : LogicalType) : string :=
  match t with
  | LText => "string"
  | LNumeric => "number"
  | LBoolean => "boolean"
  | LDate => "temporal"
  | LGeometry subtype => subtype
  end.

Definition provider_entry (axis : string) (t : TableDescriptor) : ProviderEntry :=
  {| pe_id := derive_id (tbl_name t);
     pe_source_table := tbl_name t;
     pe_pk := tbl_pk t;
     pe_geometry := (fun g => (g, axis)) <$> tbl_geometry t;
     pe_properties :=
       map (fun c => (col_name c, property_type (col_type c))) (tbl_columns t) |}.

Definition provider_document (g : Provider) : ProviderDoc :=
  {| pd_id := prv_id g;
     pd_container_paths := prv_docker g;
     pd_types := map (provider_entry (prv_axis_order g)) (prv_model g) |}.

(** ** Tile provider generator (spec section 4.4) *)

Record Tiles : Type := mkTiles { tl_id : string; tl_model : TableModel }.

(** Modelled from the spec: the constructor of [TileProvider]
    (generators/tile_provider.py is not part of the sources at hand). *)
Definition tiles_init (sid : string) (m : TableModel) (w : SWorld)
    : (Error + Tiles) * SWorld :=
  (inr {| tl_id := sid; tl_model := m |}, w).

Definition tile_document (g : Tiles) : TileDoc :=
  {| td_id := tl_id g;
     td_tilesets :=
       map (fun t => derive_id (tbl_name t)) (List.filter has_geometry (tl_model g)) |}.

(** ** Document writer *)

Definition doc_path (dir kind : string) : string := dir +:+ "/" +:+ kind.

(** Modelled from the spec: the external document writer.  It creates or
    overwrites the document at a path; a path it cannot write raises and leaves
    the stored documents as they are. *)
Definition write_document (path : string) (d : Document) (w : SWorld)
    : (Error + unit) * SWorld :=
  if existsb (String.eqb path) (w_readonly w)
  then (inl (WriterError path), w)
  else (inr tt, set_files (<[path := d]> (w_files w)) w).

(** Modelled from the spec: [create_yaml] of the three generators (generators/
    is not part of the sources at hand): the document is produced from the
    generator's table model and handed to the writer, at a sub-path of the
    output location named after the kind of document. *)
Definition service_create_yaml (g : Service) (dir : string) (w : SWorld)
    : (Error + unit) * SWorld :=
  write_document (doc_path dir "service") (DService (service_document g)) w.

Definition provider_create_yaml (g : Provider) (dir : string) (w : SWorld)
    : (Error + unit) * SWorld :=
  write_document (doc_path dir "provider") (DProvider (provider_document g)) w.

Definition tiles_create_yaml (g : Tiles) (dir : string) (w : SWorld)
    : (Error + unit) * SWorld :=
  write_document (doc_path dir "tiles") (DTiles (tile_document g)) w.

(** ** The interface, instantiated *)

Definition collaborators : Collaborators :=
  {| World := SWorld;
     Exn := Error;
     DatabaseClient := Client;
     Engine := string;
     TableConfig := TableModel;
     DbConfig := unit;
     DatabaseClient_init := client_init;
     get_schema_tables := list_tables;
     create_table_config := build_table_model;
     engine := cl_conn;
     DatabaseClient_dispose_engine := client_dispose;
     ApiService := Service;
     ApiService_init := service_init;
     ApiService_create_yaml := service_create_yaml;
     SQLProvider := Provider;
     SQLProvider_init := provider_init;
     SQLProvider_create_yaml := provider_create_yaml;
     TileProvider := Tiles;
     TileProvider_init := tiles_init;
     TileProvider_create_yaml := tiles_create_yaml |}.

(** ** A sample database

    Schema [geo] with the tables [parks] (polygon geometry, primary key [id])
    and [stations] (no geometry, primary key [id]). *)

Definition parks : DbTable :=
  {| dt_name := "parks";
     dt_columns :=
       [ {| dc_name := "id"; dc_native := "integer"; dc_logical := Some LNumeric |};
         {| dc_name := "name"; dc_native := "text"; dc_logical := Some LText |};
         {| dc_name := "geom"; dc_native := "geometry";
            dc_logical := Some (LGeometry "polygon") |} ];
     dt_pk := Some "id";
     dt_geometry := Some "geom" |}.

Definition stations : DbTable :=
  {| dt_name := "stations";
     dt_columns :=
       [ {| dc_name := "id"; dc_native := "integer"; dc_logical := Some LNumeric |};
         {| dc_name := "opened"; dc_native := "date"; dc_logical := Some LDate |} ];
     dt_pk := Some "id";
     dt_geometry := None |}.

Definition geo_world (readonly : list string) : SWorld :=
  {| w_reachable := true;
     w_schemas := [("geo", [parks; stations])];
     w_pool_open := false;
     w_files := ∅;
     w_readonly := readonly |}.

Definition sample_state (readonly : list string) : State (C := collaborators) :=
  @mkState collaborators (geo_world readonly) [].

(** The object that a construction over the sample database yields, for
    service [svc], with every optional argument omitted. *)
Definition sample_model : TableModel :=
  [ {| tbl_name := "parks";
       tbl_columns := [ {| col_name := "id"; col_type := LNumeric |};
                        {| col_name := "name"; col_type := LText |};
                        {| col_name := "geom"; col_type := LGeometry "polygon" |} ];
       tbl_pk := Some "id";
       tbl_geometry := Some "geom" |};
    {| tbl_name := "stations";
       tbl_columns := [ {| col_name := "id"; col_type := LNumeric |};
                        {| col_name := "opened"; col_type := LDate |} ];
       tbl_pk := Some "id";
       tbl_geometry := None |} ].

Definition sample_client : Client :=
  {| cl_conn := "postgresql://host/db"; cl_schema := "geo" |}.

Definition sample_generator : LDProxyConfigGenerator (C := collaborators) :=
  @mkGenerator collaborators "svc" "geo" "postgresql://host/db"
    (Some ["parks"; "stations"]) default_api_blocks false sample_client sample_model
    {| svc_id := "svc"; svc_model := sample_model;
       svc_flags := [QUERYABLES; CRS; FILTER; TILES; STYLES; PROJECTIONS] |}
    {| prv_id := "svc"; prv_axis_order := "LON_LAT"; prv_model := sample_model;
       prv_engine := "postgresql://host/db"; prv_docker := false |}
    {| tl_id := "svc"; tl_model := sample_model |}.

(** The state in which that construction ends. *)
Definition sample_ready (readonly : list string) : State (C := collaborators) :=
  @mkState collaborators (set_pool true (geo_world readonly))
    (init_calls sample_generator None ["parks"; "stations"]).

(** The state once the three documents of the sample are written under [out]. *)
Definition sample_written : State (C := collaborators) :=
  snd (generate_yaml_files sample_generator "out" (sample_ready [])).

(** The state after the release that follows it. *)
Definition sample_released (readonly : list string) : State (C := collaborators) :=
  @mkState collaborators (set_pool false (geo_world readonly))
    (init_calls sample_generator None ["parks"; "stations"]
     ++ [@CDisposeEngine collaborators sample_client]).

(** The state after a generation that follows the release. *)
Definition sample_released_written : State (C := collaborators) :=
  snd (generate_yaml_files sample_generator "out" (sample_released [])).

(** The state after a generation whose tile document cannot be written. *)
Definition sample_partial : State (C := collaborators) :=
  snd (generate_yaml_files sample_generator "out" (sample_ready ["out/tiles"])).

(** Objects that a construction over the sample database yields for other
    arguments: the given tables, model, flags as passed and flags as read. *)
Definition sample_object (tables : list string) (m : TableModel)
    (blocks : list string) (flags : list CapabilityFlag)
    : LDProxyConfigGenerator (C := collaborators) :=
  @mkGenerator collaborators "svc" "geo" "postgresql://host/db"
    (Some tables) blocks false sample_client m
    {| svc_id := "svc"; svc_model := m; svc_flags := flags |}
    {| prv_id := "svc"; prv_axis_order := "LON_LAT"; prv_model := m;
       prv_engine := "postgresql://host/db"; prv_docker := false |}
    {| tl_id := "svc"; tl_model := m |}.

Definition sample_object_ready (tables : option (list string))
    (o : LDProxyConfigGenerator (C := collaborators)) (ts : list string)
    : State (C := collaborators) :=
  @mkState collaborators (set_pool true (geo_world [])) (init_calls o tables ts).

End SpecModel.

(** * What the driver does, for any collaborators *)

Section DriverFacts.
Context `{C : Collaborators}.

Lemma bind_inl {A B} (m : Py A) (k : A -> Py B) s e s' :
  m s = (inl e, s') -> bind m k s = (inl e, s').
Proof. unfold bind. intros ->. reflexivity. Qed.

Lemma bind_inr {A B} (m : Py A) (k : A -> Py B) s a s1 :
  m s = (inr a, s1) -> bind m k s = k a s1.
Proof. unfold bind. intros ->. reflexivity. Qed.

Lemma call_run {A} c (op : World -> (Exn + A) * World) s :
  call c op s =
  (fst (op (world s)), {| world := snd (op (world s)); calls := calls s ++ [c] |}).
Proof. unfold call. destruct (op (world s)). reflexivity. Qed.

(** Case analysis on the next collaborator call met in hypothesis [H]. *)
Ltac next_call H :=
  match type of H with
  | context [DatabaseClient_init ?x1 ?x2 ?x3] =>
      destruct (DatabaseClient_init x1 x2 x3) as [[?e|?db] ?w] eqn:?E
  | context [get_schema_tables ?x1 ?x2] =>
      destruct (get_schema_tables x1 x2) as [[?e|?ts] ?w] eqn:?E
  | context [create_table_config ?x1 ?x2 ?x3] =>
      destruct (create_table_config x1 x2 x3) as [[?e|?cfg] ?w] eqn:?E
  | context [ApiService_init ?x1 ?x2 ?x3 ?x4] =>
      destruct (ApiService_init x1 x2 x3 x4) as [[?e|?svc] ?w] eqn:?E
  | context [SQLProvider_init ?x1 ?x2 ?x3 ?x4 ?x5 ?x6 ?x7] =>
      destruct (SQLProvider_init x1 x2 x3 x4 x5 x6 x7) as [[?e|?sql] ?w] eqn:?E
  | context [TileProvider_init ?x1 ?x2 ?x3] =>
      destruct (TileProvider_init x1 x2 x3) as [[?e|?tile] ?w] eqn:?E
  | context [ApiService_create_yaml ?x1 ?x2 ?x3] =>
      destruct (ApiService_create_yaml x1 x2 x3) as [[?e|[]] ?w] eqn:?E
  | context [SQLProvider_create_yaml ?x1 ?x2 ?x3] =>
      destruct (SQLProvider_create_yaml x1 x2 x3) as [[?e|[]] ?w] eqn:?E
  | context [TileProvider_create_yaml ?x1 ?x2 ?x3] =>
      destruct (TileProvider_create_yaml x1 x2 x3) as [[?e|[]] ?w] eqn:?E
  | context [DatabaseClient_dispose_engine ?x1 ?x2] =>
      destruct (DatabaseClient_dispose_engine x1 x2) as [[?e|[]] ?w] eqn:?E
  end; simpl in H.

Ltac run_driver H :=
  unfold __init__, _init_resources, generate_yaml_files, dispose_engine,
    bind, call, ret in H;
  simpl in H; repeat next_call H.

(** A successful construction, step by step. *)
Lemma init_success sid schema conn tables blocks dock s o s' :
  __init__ sid schema conn tables blocks dock s = (inr o, s') ->
  exists ts w1 w2 w3 w4 w5,
    DatabaseClient_init conn schema (world s) = (inr (db_client o), w1) /\
    match tables with
    | None => get_schema_tables (db_client o) w1 = (inr ts, w2)
    | Some l => ts = l /\ w2 = w1
    end /\
    create_table_config (db_client o) ts w2 = (inr (table_config o), w3) /\
    ApiService_init sid (table_config o) (api_blocks o) w3
      = (inr (service_obj o), w4) /\
    SQLProvider_init sid "LON_LAT" (table_config o) (engine (db_client o)) None dock w4
      = (inr (sql_provider_obj o), w5) /\
    TileProvider_init sid (table_config o) w5
      = (inr (tile_provider_obj o), world s') /\
    (service_id o = sid /\ schema_name o = schema /\ db_conn_str o = conn /\
     docker o = dock) /\
    target_tables o = Some ts /\
    api_blocks o = py_or blocks default_api_blocks /\
    calls s' = calls s ++ init_calls o tables ts.
Proof.
  intros H. destruct tables as [l|]; run_driver H; try discriminate;
    injection H as <- <-; simpl.
  - exists l, w, w, w0, w1, w2. unfold init_calls. simpl.
    rewrite <- !app_assoc. simpl. repeat split; assumption || reflexivity.
  - exists ts, w, w0, w1, w2, w3. unfold init_calls. simpl.
    rewrite <- !app_assoc. simpl. repeat split; assumption || reflexivity.
Qed.

Lemma generate_yaml_files_generated o dir s :
  generated o dir s (fst (generate_yaml_files o dir s))
    (snd (generate_yaml_files o dir s)).
Proof.
  destruct (generate_yaml_files o dir s) as [r s'] eqn:H. simpl.
  run_driver H; injection H as <- <-; rewrite <- ?app_assoc; simpl.
  - eapply gen_service_raises; eassumption.
  - eapply gen_provider_raises; eassumption.
  - eapply gen_tiles_raises; eassumption.
  - eapply gen_returns; eassumption.
Qed.

(** ** Construction *)


(** C2.  When [api_blocks] is omitted, the constructed object holds the six
    default flags and the service generator is constructed with exactly that
    list. *)
Theorem init_default_api_blocks sid schema conn tables dock s o s' :
  __init__ sid schema conn tables None dock s = (inr o, s') ->
  api_blocks o = default_api_blocks /\
  (exists w w', ApiService_init sid (table_config o) default_api_blocks w
                = (inr (service_obj o), w')) /\
  In (CApiService sid (table_config o) default_api_blocks) (calls s').
Proof.
  intros H. apply init_success in H.
  destruct H as (ts & w1 & w2 & w3 & w4 & w5 & _ & _ & _ & Hsvc & _ & _ &
                 (Hsid & _) & _ & Hblocks & Hcalls).
  simpl in Hblocks. rewrite Hblocks in Hsvc. repeat split.
  - exact Hblocks.
  - exists w3, w4. exact Hsvc.
  - rewrite Hcalls. apply in_or_app. right. unfold init_calls.
    rewrite Hsid, Hblocks. simpl. destruct tables; simpl; auto.
Qed.


(** C7.  A construction, failed or not, makes no [create_yaml] call, and
    whatever the database client and the generators' constructors leave alone
    (the documents at the output location) is as it was before. *)
Theorem init_generates_nothing {O} (obs : World -> O)
    sid schema conn tables blocks dock s r s' :
  construction_preserves obs ->
  __init__ sid schema conn tables blocks dock s = (r, s') ->
  (exists new, calls s' = calls s ++ new /\
               forallb (fun c => negb (is_create_yaml c)) new = true) /\
  obs (world s') = obs (world s).
Proof.
  intros (P1 & P2 & P3 & P4 & P5 & P6) H. unfold preserves in *.
  destruct tables as [l|]; run_driver H; injection H as <- <-; simpl;
    rewrite <- ?app_assoc; simpl;
    (split; [eexists; split; [reflexivity | reflexivity] |]);
    repeat match goal with
           | E : _ ?w0 = (_, ?w1) |- obs ?w1 = _ =>
               let E' := fresh in
               pose proof (f_equal snd E) as E'; simpl in E';
               rewrite <- E'; clear E E';
               first [rewrite P1 | rewrite P2 | rewrite P3 | rewrite P4
                     | rewrite P5 | rewrite P6]
           end; reflexivity.
Qed.

(** ** Generation *)

Lemma generate_yaml_files_inv o dir s r s' :
  generate_yaml_files o dir s = (r, s') -> generated o dir s r s'.
Proof.
  intros H. pose proof (generate_yaml_files_generated o dir s) as G.
  rewrite H in G. exact G.
Qed.

(** C3.  A [generate_yaml_files] runs [create_yaml] of the service generator on
    the world it starts in, then [create_yaml] of the data provider on the world
    the first left, then [create_yaml] of the tile provider on the world the
    second left, each with the given output location, and makes no other call.
    It stops at the first call that raises, with that exception; when it
    returns, all three were run and the world is the one the third left. *)
Theorem generate_call_order o dir s r s' :
  generate_yaml_files o dir s = (r, s') ->
  generated o dir s r s' /\
  exists n, 1 <= n <= 3 /\
    calls s' = calls s ++ take n (yaml_calls o dir) /\
    (r = inr tt -> n = 3) /\
    (n < 3 -> exists e, r = inl e).
Proof.
  intros H. apply generate_yaml_files_inv in H. split; [exact H|].
  destruct H as [e w1 H1 | e w1 w2 H1 H2 | e w1 w2 w3 H1 H2 H3 | w1 w2 w3 H1 H2 H3].
  - exists 1. repeat split; try lia; try reflexivity; try discriminate. eauto.
  - exists 2. repeat split; try lia; try reflexivity; try discriminate. eauto.
  - exists 3. repeat split; try lia; try reflexivity; try discriminate.
  - exists 3. repeat split; try lia; reflexivity.
Qed.

(** C8.  When [generate_yaml_files] raises, the exception is the one of the
    first [create_yaml] call that raised, and the world is the one that call
    left, on top of what the earlier calls of the same run wrote: no call
    follows it and nothing is undone. *)
Theorem generate_failure_keeps_earlier_writes o dir s e s' :
  generate_yaml_files o dir s = (inl e, s') ->
  (ApiService_create_yaml (service_obj o) dir (world s) = (inl e, world s') /\
   calls s' = calls s ++ [CServiceYaml (service_obj o) dir])
  \/
  (exists w1,
     ApiService_create_yaml (service_obj o) dir (world s) = (inr tt, w1) /\
     SQLProvider_create_yaml (sql_provider_obj o) dir w1 = (inl e, world s') /\
     calls s' = calls s ++
       [CServiceYaml (service_obj o) dir; CProviderYaml (sql_provider_obj o) dir])
  \/
  (exists w1 w2,
     ApiService_create_yaml (service_obj o) dir (world s) = (inr tt, w1) /\
     SQLProvider_create_yaml (sql_provider_obj o) dir w1 = (inr tt, w2) /\
     TileProvider_create_yaml (tile_provider_obj o) dir w2 = (inl e, world s') /\
     calls s' = calls s ++ yaml_calls o dir).
Proof.
  intros H. apply generate_yaml_files_inv in H. inversion H; subst; simpl.
  - left. split; [assumption | reflexivity].
  - right. left. exists w1. repeat split; assumption || reflexivity.
  - right. right. exists w1, w2. repeat split; assumption || reflexivity.
Qed.

(** ** Release *)

(** C5, as the code has it.  [dispose_engine] makes one call, the client's
    [dispose_engine], and records nothing in the object.  A later
    [generate_yaml_files] runs as at any other time: it makes the three
    [create_yaml] calls in order and raises only what one of them raises. *)
Theorem generate_after_dispose o dir s r1 s1 r s2 :
  dispose_engine o s = (r1, s1) ->
  generate_yaml_files o dir s1 = (r, s2) ->
  DatabaseClient_dispose_engine (db_client o) (world s) = (r1, world s1) /\
  calls s1 = calls s ++ [CDisposeEngine (db_client o)] /\
  generated o dir s1 r s2.
Proof.
  intros Hd Hg. apply generate_yaml_files_inv in Hg.
  unfold dispose_engine in Hd. rewrite call_run in Hd.
  injection Hd as <- <-. simpl.
  repeat split; [apply surjective_pairing | exact Hg].
Qed.

(** The driver's [dispose_engine] is as repeatable as the client's. *)
Lemma dispose_engine_twice o s s1 :
  (forall w w1, DatabaseClient_dispose_engine (db_client o) w = (inr tt, w1) ->
                DatabaseClient_dispose_engine (db_client o) w1 = (inr tt, w1)) ->
  dispose_engine o s = (inr tt, s1) ->
  exists s2, dispose_engine o s1 = (inr tt, s2) /\ world s2 = world s1.
Proof.
  intros Hidem H. unfold dispose_engine in *. rewrite call_run in H.
  injection H as Hr <-. rewrite call_run. simpl.
  assert (Hd : DatabaseClient_dispose_engine (db_client o) (world s)
               = (inr tt, snd (DatabaseClient_dispose_engine (db_client o) (world s)))).
  { rewrite <- Hr. apply surjective_pairing. }
  apply Hidem in Hd. rewrite Hd. simpl. eexists. split; reflexivity.
Qed.

(** A construction whose service generator refuses its flags stops there, unless
    the database client has raised before. *)
Lemma init_stops_at_service (P : Exn -> Prop)
    sid schema conn tables blocks dock s r s' :
  (forall cfg w r' w',
      ApiService_init sid cfg (py_or blocks default_api_blocks) w = (r', w') ->
      exists e, r' = inl e /\ P e) ->
  __init__ sid schema conn tables blocks dock s = (r, s') ->
  exists e, r = inl e /\
    ((exists cfg,
        last (calls s')
          = Some (CApiService sid cfg (py_or blocks default_api_blocks)) /\ P e)
     \/ last (calls s') = Some (CDatabaseClient conn schema)
     \/ (exists db, last (calls s') = Some (CGetSchemaTables db))
     \/ (exists db ts, last (calls s') = Some (CCreateTableConfig db ts))).
Proof.
  intros Hrej H.
  destruct tables as [l|]; run_driver H; injection H as <- <-; simpl;
    try match goal with
        | E : ApiService_init _ _ _ _ = (inr _, _) |- _ =>
            apply Hrej in E; destruct E as (? & ? & _); discriminate
        end;
    eexists; (split; [reflexivity|]); rewrite last_snoc;
    try match goal with
        | E : ApiService_init _ _ _ _ = (inl _, _) |- _ =>
            apply Hrej in E; destruct E as (? & [= <-] & ?)
        end; eauto 8.
Qed.

End DriverFacts.

(** * The driver over the collaborators of the specification *)

Section SpecFacts.
Import SpecModel.
Local Existing Instance collaborators.

(** ** The table model covers the requested tables *)

Lemma find_table_name n ts t : find_table n ts = Some t -> dt_name t = n.
Proof.
  unfold find_table. intros H. apply find_some in H as [_ H].
  apply String.eqb_eq in H. exact H.
Qed.

Lemma describe_table_name t d : describe_table t = inr d -> tbl_name d = dt_name t.
Proof.
  unfold describe_table. destruct (describe_columns _ _); [discriminate|].
  intros [= <-]. reflexivity.
Qed.

Lemma describe_tables_names ts names m :
  describe_tables ts names = inr m -> model_tables m = names.
Proof.
  revert m. induction names as [|n names IH]; simpl; intros m H.
  - injection H as <-. reflexivity.
  - destruct (find_table n ts) as [t|] eqn:Hf; [|discriminate].
    destruct (describe_table t) as [e|d] eqn:Hd; [discriminate|].
    destruct (describe_tables ts names) as [e|m'] eqn:Hm; [discriminate|].
    injection H as <-. simpl.
    rewrite (describe_table_name _ _ Hd), (find_table_name _ _ _ Hf).
    f_equal. apply IH. reflexivity.
Qed.

Lemma build_table_model_covers c names w m w' :
  build_table_model c names w = (inr m, w') -> model_tables m = names.
Proof.
  unfold build_table_model. destruct (schema_of c w) as [e|ts]; [discriminate|].
  destruct (List.filter (is_missing ts) names); [|discriminate].
  intros [= H _]. eapply describe_tables_names. exact H.
Qed.

(** The documents name the tables of the model, in the order of the model. *)
Lemma service_document_feature_types g :
  map ft_id (sd_feature_types (service_document g)) = model_tables (svc_model g).
Proof.
  unfold service_document, model_tables. simpl. rewrite map_map. reflexivity.
Qed.

Lemma provider_document_types g :
  map pe_source_table (pd_types (provider_document g)) = model_tables (prv_model g).
Proof.
  unfold provider_document, model_tables. simpl. rewrite map_map. reflexivity.
Qed.

Lemma tile_document_tilesets g :
  td_tilesets (tile_document g)
  = model_tables (List.filter has_geometry (tl_model g)).
Proof. reflexivity. Qed.

Lemma sample_init readonly :
  __init__ "svc" "geo" "postgresql://host/db" None None false (sample_state readonly)
  = (inr sample_generator, sample_ready readonly).
Proof. reflexivity. Qed.


(** ** Unknown flags *)

Lemma parse_flags_unknown blocks b :
  In b blocks -> flag_of_string b = None ->
  exists u, parse_flags blocks = inl (UnsupportedTypeError u) /\
            In u blocks /\ flag_of_string u = None.
Proof.
  induction blocks as [|x blocks IH]; simpl; [tauto|]. intros Hin Hb.
  destruct (flag_of_string x) as [f|] eqn:Hx.
  - destruct Hin as [-> | Hin]; [congruence|].
    destruct (IH Hin Hb) as (u & -> & Hu & Hnone). eauto.
  - eauto.
Qed.

(** C6.  A construction whose [api_blocks] holds a string outside the closed
    set of flags never returns an object.  The list reaches the constructor of
    the service generator as given, which raises the error naming an
    unrecognized flag of the list; only an earlier error of the database client
    can come first. *)
Theorem init_rejects_unknown_flag sid schema conn tables blocks dock s b :
  In b blocks -> flag_of_string b = None ->
  exists e s',
    __init__ sid schema conn tables (Some blocks) dock s = (inl e, s') /\
    ((exists cfg u,
        last (calls s') = Some (CApiService sid cfg blocks) /\
        e = UnsupportedTypeError u /\ In u blocks /\ flag_of_string u = None)
     \/ last (calls s') = Some (CDatabaseClient conn schema)
     \/ (exists db, last (calls s') = Some (CGetSchemaTables db))
     \/ (exists db ts, last (calls s') = Some (CCreateTableConfig db ts))).
Proof.
  intros Hin Hb.
  assert (Hor : py_or (Some blocks) default_api_blocks = blocks).
  { destruct blocks; [destruct Hin | reflexivity]. }
  destruct (__init__ sid schema conn tables (Some blocks) dock s) as [r s'] eqn:H.
  eapply (init_stops_at_service (C := collaborators)
            (fun e : Error => exists u, e = UnsupportedTypeError u /\ In u blocks /\
                                flag_of_string u = None)) in H.
  - destruct H as (e & -> & H). exists e, s'. split; [reflexivity|].
    rewrite Hor in H.
    destruct H as [(cfg & Hl & u & Hu) | H]; [left | right; exact H].
    exists cfg, u. split; assumption.
  - rewrite Hor. intros cfg w r' w'. simpl. unfold service_init.
    destruct (parse_flags_unknown blocks b Hin Hb) as (u & -> & Hu).
    intros [= <- _]. eauto.
Qed.

Lemma init_rejects_unknown_flag_witness :
  exists e s',
    __init__ "svc" "geo" "postgresql://host/db" None (Some ["TILES"; "BOGUS"]) false
      (sample_state []) = (inl e, s') /\
    ((exists cfg u,
        last (calls s') = Some (CApiService "svc" cfg ["TILES"; "BOGUS"]) /\
        e = UnsupportedTypeError u /\ In u ["TILES"; "BOGUS"] /\
        flag_of_string u = None)
     \/ last (calls s') = Some (CDatabaseClient "postgresql://host/db" "geo")
     \/ (exists db, last (calls s') = Some (CGetSchemaTables db))
     \/ (exists db ts, last (calls s') = Some (CCreateTableConfig db ts))).
Proof.
  apply (init_rejects_unknown_flag "svc" "geo" "postgresql://host/db" None
           ["TILES"; "BOGUS"] false (sample_state []) "BOGUS").
  - simpl. auto.
  - reflexivity.
Defined.

(** ** Release *)

Lemma client_dispose_twice c w w1 :
  client_dispose c w = (inr tt, w1) -> client_dispose c w1 = (inr tt, w1).
Proof. unfold client_dispose. intros [= <-]. reflexivity. Qed.

(** C9.  [dispose_engine] always returns, and a second call returns as well and
    leaves the world as the first call left it; the object itself is never
    changed by it. *)
Theorem dispose_engine_idempotent (o : LDProxyConfigGenerator) s :
  exists s1 s2,
    dispose_engine o s = (inr tt, s1) /\
    dispose_engine o s1 = (inr tt, s2) /\
    world s2 = world s1 /\
    w_pool_open (world s1) = false.
Proof.
  destruct (dispose_engine o s) as [r s1] eqn:H1.
  assert (r = inr tt /\ w_pool_open (world s1) = false) as [-> Hp].
  { unfold dispose_engine in H1. rewrite call_run in H1.
    injection H1 as <- <-. split; reflexivity. }
  destruct (dispose_engine_twice o s s1) as (s2 & H2 & Hw).
  - intros w w1. apply client_dispose_twice.
  - exact H1.
  - exists s1, s2. repeat split; assumption.
Qed.

(** ** Generation is repeatable *)

(** Writing again the documents that a run has just written changes nothing. *)
Lemma insert_again_3 (f : gmap string Document) k1 k2 k3 d1 d2 d3 :
  <[k3:=d3]> (<[k2:=d2]> (<[k1:=d1]> (<[k3:=d3]> (<[k2:=d2]> (<[k1:=d1]> f)))))
  = <[k3:=d3]> (<[k2:=d2]> (<[k1:=d1]> f)).
Proof.
  apply map_eq. intros k. rewrite !lookup_insert.
  repeat case_decide; reflexivity.
Qed.

Lemma insert_again_2 (f : gmap string Document) k1 k2 d1 d2 :
  <[k2:=d2]> (<[k1:=d1]> (<[k2:=d2]> (<[k1:=d1]> f)))
  = <[k2:=d2]> (<[k1:=d1]> f).
Proof.
  apply map_eq. intros k. rewrite !lookup_insert.
  repeat case_decide; reflexivity.
Qed.

(** Two successive [generate_yaml_files] of one object end alike: the second
    run returns, or raises, what the first did, and leaves every stored document
    as the first run left it. *)
Lemma generate_twice_same_outcome (o : LDProxyConfigGenerator) dir s :
  fst (generate_yaml_files o dir (snd (generate_yaml_files o dir s)))
    = fst (generate_yaml_files o dir s) /\
  world (snd (generate_yaml_files o dir (snd (generate_yaml_files o dir s))))
    = world (snd (generate_yaml_files o dir s)).
Proof.
  unfold generate_yaml_files, bind, call. simpl.
  unfold service_create_yaml, provider_create_yaml, tiles_create_yaml,
    write_document.
  destruct (existsb (String.eqb (doc_path dir "service")) (w_readonly (world s)))
    eqn:E1; simpl.
  { rewrite E1. simpl. split; reflexivity. }
  destruct (existsb (String.eqb (doc_path dir "provider")) (w_readonly (world s)))
    eqn:E2; simpl.
  { rewrite E1. simpl. rewrite E2. simpl. split; [reflexivity|].
    unfold set_files. simpl. rewrite insert_insert_eq. reflexivity. }
  destruct (existsb (String.eqb (doc_path dir "tiles")) (w_readonly (world s)))
    eqn:E3; simpl.
  { rewrite E1. simpl. rewrite E2. simpl. rewrite E3. simpl.
    split; [reflexivity|]. unfold set_files. simpl.
    rewrite insert_again_2. reflexivity. }
  rewrite E1. simpl. rewrite E2. simpl. rewrite E3. simpl.
  split; [reflexivity|]. unfold set_files. simpl.
  rewrite insert_again_3. reflexivity.
Qed.

Lemma doc_path_inj dir k1 k2 : doc_path dir k1 = doc_path dir k2 -> k1 = k2.
Proof.
  unfold doc_path. induction dir as [|a dir IH]; simpl.
  - intros [= H]. exact H.
  - intros [= H]. apply IH. exact H.
Qed.

Lemma write_document_returns p d w w' :
  write_document p d w = (inr tt, w') ->
  w' = set_files (<[p:=d]> (w_files w)) w.
Proof.
  unfold write_document. destruct (existsb _ _); [discriminate|].
  intros [= <-]. reflexivity.
Qed.

(** What a generation that returns has stored under the output location. *)
Lemma generate_stores (o : LDProxyConfigGenerator) dir s s1 :
  generate_yaml_files o dir s = (inr tt, s1) ->
  w_files (world s1) !! doc_path dir "service"
    = Some (DService (service_document (service_obj o))) /\
  w_files (world s1) !! doc_path dir "provider"
    = Some (DProvider (provider_document (sql_provider_obj o))) /\
  w_files (world s1) !! doc_path dir "tiles"
    = Some (DTiles (tile_document (tile_provider_obj o))).
Proof.
  intros H. apply generate_yaml_files_inv in H. inversion H as [| | |w1 w2 w3 H1 H2 H3].
  subst. simpl in *.
  apply write_document_returns in H1, H2, H3. subst w3 w2 w1. simpl.
  assert (Hsp : doc_path dir "provider" <> doc_path dir "service")
    by (intros E; apply doc_path_inj in E; discriminate).
  assert (Hst : doc_path dir "tiles" <> doc_path dir "service")
    by (intros E; apply doc_path_inj in E; discriminate).
  assert (Hpt : doc_path dir "tiles" <> doc_path dir "provider")
    by (intros E; apply doc_path_inj in E; discriminate).
  repeat split.
  - rewrite lookup_insert_ne by exact Hst. rewrite lookup_insert_ne by exact Hsp.
    apply lookup_insert_eq.
  - rewrite lookup_insert_ne by exact Hpt. apply lookup_insert_eq.
  - apply lookup_insert_eq.
Qed.

(** The generators of a constructed object work on the model that the
    construction built, and that model lists the target tables in their
    order. *)
Lemma init_models sid schema conn tables blocks dock s0 (o : LDProxyConfigGenerator) s :
  __init__ sid schema conn tables blocks dock s0 = (inr o, s) ->
  exists ts,
    target_tables o = Some ts /\
    model_tables (table_config o) = ts /\
    svc_model (service_obj o) = table_config o /\
    prv_model (sql_provider_obj o) = table_config o /\
    tl_model (tile_provider_obj o) = table_config o.
Proof.
  intros H. apply init_success in H.
  destruct H as (ts & w1 & w2 & w3 & w4 & w5 & _ & _ & Hcfg & Hsvc & Hsql & Htile &
                 _ & Htt & _ & _).
  simpl in Hcfg, Hsvc, Hsql, Htile. exists ts. split; [exact Htt|].
  split; [eapply build_table_model_covers; exact Hcfg|].
  unfold service_init in Hsvc. destruct (parse_flags _); [discriminate|].
  injection Hsvc as <- _. injection Hsql as <- _. injection Htile as <- _.
  repeat split; reflexivity.
Qed.

(** C4.  After a construction, a generation that returns has stored a service
    document whose feature types are the target tables in their order, a
    provider document with one entry per target table in that order, and a tile
    document whose tilesets are the tables of the model that have a geometry,
    in the order of the model.  A second generation returns as well and leaves
    the world, hence these documents and the order of their entries, exactly as
    the first left them. *)
Theorem generate_twice_same_documents
    sid schema conn tables blocks dock s0 (o : LDProxyConfigGenerator) s' dir s s1 :
  __init__ sid schema conn tables blocks dock s0 = (inr o, s') ->
  generate_yaml_files o dir s = (inr tt, s1) ->
  exists ts s2 dsvc dprv dtile,
    target_tables o = Some ts /\
    generate_yaml_files o dir s1 = (inr tt, s2) /\
    world s2 = world s1 /\
    (w_files (world s1) !! doc_path dir "service" = Some (DService dsvc) /\
     w_files (world s2) !! doc_path dir "service" = Some (DService dsvc) /\
     map ft_id (sd_feature_types dsvc) = ts) /\
    (w_files (world s1) !! doc_path dir "provider" = Some (DProvider dprv) /\
     w_files (world s2) !! doc_path dir "provider" = Some (DProvider dprv) /\
     map pe_id (pd_types dprv) = ts) /\
    (w_files (world s1) !! doc_path dir "tiles" = Some (DTiles dtile) /\
     w_files (world s2) !! doc_path dir "tiles" = Some (DTiles dtile) /\
     td_tilesets dtile
       = map tbl_name (List.filter has_geometry (table_config o))).
Proof.
  intros Hi Hg.
  destruct (init_models _ _ _ _ _ _ _ _ _ Hi) as (ts & Htt & Hts & Hm1 & Hm2 & Hm3).
  destruct (generate_twice_same_outcome o dir s) as [Hr Hw].
  rewrite Hg in Hr, Hw. simpl in Hr, Hw.
  destruct (generate_yaml_files o dir s1) as [r2 s2] eqn:Hg2. simpl in Hr, Hw.
  subst r2.
  destruct (generate_stores o dir s s1 Hg) as (F1 & F2 & F3).
  exists ts, s2, (service_document (service_obj o)),
    (provider_document (sql_provider_obj o)), (tile_document (tile_provider_obj o)).
  split; [exact Htt|]. split; [reflexivity|]. split; [exact Hw|].
  rewrite Hw. repeat split; try assumption.
  - rewrite service_document_feature_types, Hm1. exact Hts.
  - unfold provider_document. simpl. rewrite map_map. simpl.
    rewrite Hm2. exact Hts.
  - rewrite tile_document_tilesets, Hm3. reflexivity.
Qed.


(** ** The sample database, run *)

Lemma construction_preserves_files : construction_preserves (C := collaborators) w_files.
Proof.
  unfold construction_preserves, preserves. simpl.
  split; [reflexivity|]. split; [|split; [|split; [|split; reflexivity]]]; intros.
  - unfold list_tables. destruct (schema_of _ _); reflexivity.
  - unfold build_table_model. destruct (schema_of _ _); [reflexivity|].
    destruct (List.filter _ _); reflexivity.
  - unfold service_init. destruct (parse_flags _); reflexivity.
Qed.

Lemma init_default_api_blocks_witness :
  api_blocks sample_generator = default_api_blocks /\
  (exists w w',
      ApiService_init "svc" (table_config sample_generator) default_api_blocks w
      = (inr (service_obj sample_generator), w')) /\
  In (CApiService "svc" (table_config sample_generator) default_api_blocks)
     (calls (sample_ready [])).
Proof.
  exact (init_default_api_blocks (C := collaborators)
           "svc" "geo" "postgresql://host/db" None false (sample_state [])
           sample_generator (sample_ready []) (sample_init [])).
Defined.


(** A construction over a schema that does not exist. *)
Lemma init_missing_schema :
  __init__ "svc" "nowhere" "postgresql://host/db" None None false (sample_state [])
  = (inl (NotFoundError ["nowhere"]),
     @mkState collaborators (set_pool true (geo_world []))
       [ CDatabaseClient "postgresql://host/db" "nowhere";
         CGetSchemaTables {| cl_conn := "postgresql://host/db";
                             cl_schema := "nowhere" |} ]).
Proof. reflexivity. Qed.

Lemma init_generates_nothing_witness :
  (exists new,
      [ CDatabaseClient "postgresql://host/db" "nowhere";
        CGetSchemaTables {| cl_conn := "postgresql://host/db";
                            cl_schema := "nowhere" |} ]
      = calls (sample_state []) ++ new /\
      forallb (fun c => negb (is_create_yaml c)) new = true) /\
  w_files (set_pool true (geo_world [])) = w_files (world (sample_state [])).
Proof.
  exact (init_generates_nothing (C := collaborators) w_files
           "svc" "nowhere" "postgresql://host/db" None None false (sample_state [])
           _ _ construction_preserves_files init_missing_schema).
Defined.

Lemma sample_generate :
  generate_yaml_files sample_generator "out" (sample_ready [])
  = (inr tt, sample_written).
Proof. reflexivity. Qed.

Lemma generate_call_order_witness :
  generated sample_generator "out" (sample_ready []) (inr tt) sample_written /\
  exists n, 1 <= n <= 3 /\
    calls sample_written
      = calls (sample_ready []) ++ take n (yaml_calls sample_generator "out") /\
    (@inr Error unit tt = inr tt -> n = 3) /\
    (n < 3 -> exists e, @inr Error unit tt = inl e).
Proof.
  exact (generate_call_order (C := collaborators) sample_generator "out"
           (sample_ready []) (inr tt) sample_written sample_generate).
Defined.

Lemma generate_twice_same_documents_witness :
  exists ts s2 dsvc dprv dtile,
    target_tables sample_generator = Some ts /\
    generate_yaml_files sample_generator "out" sample_written = (inr tt, s2) /\
    world s2 = world sample_written /\
    (w_files (world sample_written) !! doc_path "out" "service"
       = Some (DService dsvc) /\
     w_files (world s2) !! doc_path "out" "service" = Some (DService dsvc) /\
     map ft_id (sd_feature_types dsvc) = ts) /\
    (w_files (world sample_written) !! doc_path "out" "provider"
       = Some (DProvider dprv) /\
     w_files (world s2) !! doc_path "out" "provider" = Some (DProvider dprv) /\
     map pe_id (pd_types dprv) = ts) /\
    (w_files (world sample_written) !! doc_path "out" "tiles"
       = Some (DTiles dtile) /\
     w_files (world s2) !! doc_path "out" "tiles" = Some (DTiles dtile) /\
     td_tilesets dtile
       = map tbl_name (List.filter has_geometry (table_config sample_generator))).
Proof.
  exact (generate_twice_same_documents
           "svc" "geo" "postgresql://host/db" None None false (sample_state [])
           sample_generator (sample_ready []) "out" (sample_ready []) sample_written
           (sample_init []) sample_generate).
Defined.

(** A run whose tile document cannot be written: the service and provider
    documents of the same run stay where they were written. *)
Lemma sample_generate_partial :
  generate_yaml_files sample_generator "out" (sample_ready ["out/tiles"])
  = (inl (WriterError "out/tiles"), sample_partial).
Proof. reflexivity. Qed.

Lemma generate_failure_keeps_earlier_writes_witness :
  (w_files (world sample_partial) !! "out/service"
     = Some (DService (service_document (service_obj sample_generator))) /\
   w_files (world sample_partial) !! "out/provider"
     = Some (DProvider (provider_document (sql_provider_obj sample_generator))) /\
   w_files (world sample_partial) !! "out/tiles" = None) /\
  ((ApiService_create_yaml (service_obj sample_generator) "out"
      (world (sample_ready ["out/tiles"]))
      = (inl (WriterError "out/tiles"), world sample_partial) /\
    calls sample_partial = calls (sample_ready ["out/tiles"]) ++
      [CServiceYaml (service_obj sample_generator) "out"])
   \/
   (exists w1,
      ApiService_create_yaml (service_obj sample_generator) "out"
        (world (sample_ready ["out/tiles"])) = (inr tt, w1) /\
      SQLProvider_create_yaml (sql_provider_obj sample_generator) "out" w1
        = (inl (WriterError "out/tiles"), world sample_partial) /\
      calls sample_partial = calls (sample_ready ["out/tiles"]) ++
        [CServiceYaml (service_obj sample_generator) "out";
         CProviderYaml (sql_provider_obj sample_generator) "out"])
   \/
   (exists w1 w2,
      ApiService_create_yaml (service_obj sample_generator) "out"
        (world (sample_ready ["out/tiles"])) = (inr tt, w1) /\
      SQLProvider_create_yaml (sql_provider_obj sample_generator) "out" w1
        = (inr tt, w2) /\
      TileProvider_create_yaml (tile_provider_obj sample_generator) "out" w2
        = (inl (WriterError "out/tiles"), world sample_partial) /\
      calls sample_partial = calls (sample_ready ["out/tiles"]) ++
        yaml_calls sample_generator "out")).
Proof.
  split.
  - repeat split; vm_compute; reflexivity.
  - exact (generate_failure_keeps_earlier_writes (C := collaborators)
             sample_generator "out" (sample_ready ["out/tiles"])
             (WriterError "out/tiles") sample_partial sample_generate_partial).
Defined.

Lemma sample_dispose :
  dispose_engine sample_generator (sample_ready []) = (inr tt, sample_released []).
Proof. reflexivity. Qed.

Lemma sample_generate_released :
  generate_yaml_files sample_generator "out" (sample_released [])
  = (inr tt, sample_released_written).
Proof. reflexivity. Qed.

(** C5, against the claim.  On the sample database the object is constructed
    and released; the generation that follows returns, with the three documents
    written: it does not fail with [DisposedError]. *)
Lemma generate_after_dispose_returns :
  ~ (forall (o : LDProxyConfigGenerator) dir s s1 r s2,
        dispose_engine o s = (inr tt, s1) ->
        generate_yaml_files o dir s1 = (r, s2) ->
        r = inl DisposedError).
Proof.
  intros H.
  pose proof (H sample_generator "out" (sample_ready []) (sample_released [])
                (inr tt) sample_released_written
                sample_dispose sample_generate_released) as Hr.
  discriminate Hr.
Qed.

Lemma generate_after_dispose_witness :
  DatabaseClient_dispose_engine (db_client sample_generator)
    (world (sample_ready [])) = (inr tt, world (sample_released [])) /\
  calls (sample_released [])
    = calls (sample_ready []) ++ [CDisposeEngine (db_client sample_generator)] /\
  generated sample_generator "out" (sample_released []) (inr tt)
    sample_released_written.
Proof.
  exact (generate_after_dispose (C := collaborators) sample_generator "out"
           (sample_ready []) (inr tt) (sample_released []) (inr tt)
           sample_released_written sample_dispose sample_generate_released).
Defined.

End SpecFacts.

(** * More on the driver *)

Section DriverMore.
Context `{C : Collaborators}.

Ltac next_call H :=
  match type of H with
  | context [DatabaseClient_init ?x1 ?x2 ?x3] =>
      destruct (DatabaseClient_init x1 x2 x3) as [[?e|?db] ?w] eqn:?E
  | context [get_schema_tables ?x1 ?x2] =>
      destruct (get_schema_tables x1 x2) as [[?e|?ts] ?w] eqn:?E
  | context [create_table_config ?x1 ?x2 ?x3] =>
      destruct (create_table_config x1 x2 x3) as [[?e|?cfg] ?w] eqn:?E
  | context [ApiService_init ?x1 ?x2 ?x3 ?x4] =>
      destruct (ApiService_init x1 x2 x3 x4) as [[?e|?svc] ?w] eqn:?E
  | context [SQLProvider_init ?x1 ?x2 ?x3 ?x4 ?x5 ?x6 ?x7] =>
      destruct (SQLProvider_init x1 x2 x3 x4 x5 x6 x7) as [[?e|?sql] ?w] eqn:?E
  | context [TileProvider_init ?x1 ?x2 ?x3] =>
      destruct (TileProvider_init x1 x2 x3) as [[?e|?tile] ?w] eqn:?E
  end; simpl in H.

Ltac run_init H :=
  unfold __init__, _init_resources, bind, call, ret in H;
  simpl in H; repeat next_call H.

(** X1.  When the tables are given, even as an empty list, the schema is not
    enumerated: the given list is kept as [target_tables] and is the one the
    table model is built from. *)
Theorem init_given_tables sid schema conn l blocks dock s o s' :
  __init__ sid schema conn (Some l) blocks dock s = (inr o, s') ->
  target_tables o = Some l /\
  (exists w1 w2,
      DatabaseClient_init conn schema (world s) = (inr (db_client o), w1) /\
      create_table_config (db_client o) l w1 = (inr (table_config o), w2)) /\
  calls s' = calls s ++
    [ CDatabaseClient conn schema;
      CCreateTableConfig (db_client o) l;
      CApiService sid (table_config o) (api_blocks o);
      CSQLProvider sid "LON_LAT" (table_config o) (engine (db_client o)) None dock;
      CTileProvider sid (table_config o) ].
Proof.
  intros H. apply init_success in H.
  destruct H as (ts & w1 & w2 & w3 & w4 & w5 & Hdb & (-> & ->) & Hcfg & _ & _ & _ &
                 (Hsid & Hschema & Hconn & Hdock) & Htt & _ & Hcalls).
  split; [exact Htt|]. split; [exists w1, w3; split; assumption|].
  rewrite Hcalls. unfold init_calls. simpl.
  rewrite Hsid, Hschema, Hconn, Hdock. reflexivity.
Qed.

(** X2.  A non-empty [api_blocks] is taken as it is: the object holds the very
    list and the service generator is constructed with it; the driver neither
    checks it nor adds the defaults to it. *)
Theorem init_given_api_blocks sid schema conn tables b bs dock s o s' :
  __init__ sid schema conn tables (Some (b :: bs)) dock s = (inr o, s') ->
  api_blocks o = b :: bs /\
  (exists w w', ApiService_init sid (table_config o) (b :: bs) w
                = (inr (service_obj o), w')) /\
  In (CApiService sid (table_config o) (b :: bs)) (calls s').
Proof.
  intros H. apply init_success in H.
  destruct H as (ts & w1 & w2 & w3 & w4 & w5 & _ & _ & _ & Hsvc & _ & _ &
                 (Hsid & _) & _ & Hblocks & Hcalls).
  simpl in Hblocks. rewrite Hblocks in Hsvc. repeat split.
  - exact Hblocks.
  - exists w3, w4. exact Hsvc.
  - rewrite Hcalls. apply in_or_app. right. unfold init_calls.
    rewrite Hsid, Hblocks. simpl. destruct tables; simpl; auto.
Qed.

(** X3.  After a construction that returns, the three generators are what
    their constructors returned, run one after the other on the one table model
    that [create_table_config] returned: the service generator with the flags of
    the object, the data provider with the axis order [LON_LAT], the engine of
    the client, no database configuration and the caller's [docker] flag, then
    the tile provider, whose constructor leaves the world the construction ends
    in. *)
Theorem init_provider_arguments sid schema conn tables blocks dock s o s' :
  __init__ sid schema conn tables blocks dock s = (inr o, s') ->
  exists ts w2 w3 w4 w5,
    create_table_config (db_client o) ts w2 = (inr (table_config o), w3) /\
    ApiService_init sid (table_config o) (api_blocks o) w3
      = (inr (service_obj o), w4) /\
    SQLProvider_init sid "LON_LAT" (table_config o) (engine (db_client o)) None dock w4
      = (inr (sql_provider_obj o), w5) /\
    TileProvider_init sid (table_config o) w5
      = (inr (tile_provider_obj o), world s') /\
    docker o = dock.
Proof.
  intros H. apply init_success in H.
  destruct H as (ts & w1 & w2 & w3 & w4 & w5 & _ & _ & Hcfg & Hsvc & Hsql & Htile &
                 (_ & _ & _ & Hdock) & _).
  exists ts, w2, w3, w4, w5. repeat split; assumption.
Qed.

(** X4.  When a construction raises, the exception is the one raised by the
    last call it made, and the world is as that call left it: no call follows
    the failure, and the client that may have been created is not released. *)
Theorem init_failure_is_last_call sid schema conn tables blocks dock s e s' :
  __init__ sid schema conn tables blocks dock s = (inl e, s') ->
  exists c w,
    last (calls s') = Some c /\
    run_call c w = (inl e, world s') /\
    is_create_yaml c = false /\ is_dispose c = false.
Proof.
  intros H.
  destruct tables as [l|]; run_init H; try discriminate;
    injection H as <- <-; simpl;
    eexists _, _; (split; [apply last_snoc|]); simpl;
    (split; [|split; reflexivity]);
    match goal with
    | E : _ = (inl _, _) |- _ => unfold forget; erewrite E; reflexivity
    end.
Qed.

(** X5.  [generate_yaml_files] returns exactly when the three [create_yaml]
    calls return one after the other, each on the world the one before left. *)
Theorem generate_returns_iff o dir s s' :
  generate_yaml_files o dir s = (inr tt, s') <->
  exists w1 w2,
    ApiService_create_yaml (service_obj o) dir (world s) = (inr tt, w1) /\
    SQLProvider_create_yaml (sql_provider_obj o) dir w1 = (inr tt, w2) /\
    TileProvider_create_yaml (tile_provider_obj o) dir w2 = (inr tt, world s') /\
    calls s' = calls s ++ yaml_calls o dir.
Proof.
  split.
  - intros H. apply generate_yaml_files_inv in H. inversion H; subst.
    exists w1, w2. simpl. repeat split; assumption.
  - intros (w1 & w2 & H1 & H2 & H3 & Hc).
    unfold generate_yaml_files, bind, call. rewrite H1. simpl. rewrite H2. simpl.
    rewrite H3. destruct s' as [w' c']. simpl in *. subst c'.
    rewrite <- !app_assoc. reflexivity.
Qed.

(** X6.  A whole life of the object: when construction, generation and release
    all return, the three [create_yaml] ran one after the other starting on the
    world the construction ended in (the one the constructor of the tile
    provider left), the client's [dispose_engine] ran on the world the last
    [create_yaml] left, and the calls made are those of the construction, the
    three [create_yaml] and the one [dispose_engine], in this order. *)
Theorem lifecycle_calls sid schema conn tables blocks dock dir s o s1 s2 s3 :
  __init__ sid schema conn tables blocks dock s = (inr o, s1) ->
  generate_yaml_files o dir s1 = (inr tt, s2) ->
  dispose_engine o s2 = (inr tt, s3) ->
  exists ts w0 w1 w2,
    target_tables o = Some ts /\
    TileProvider_init sid (table_config o) w0
      = (inr (tile_provider_obj o), world s1) /\
    ApiService_create_yaml (service_obj o) dir (world s1) = (inr tt, w1) /\
    SQLProvider_create_yaml (sql_provider_obj o) dir w1 = (inr tt, w2) /\
    TileProvider_create_yaml (tile_provider_obj o) dir w2 = (inr tt, world s2) /\
    DatabaseClient_dispose_engine (db_client o) (world s2) = (inr tt, world s3) /\
    calls s3 = calls s ++ init_calls o tables ts ++ yaml_calls o dir
                 ++ [CDisposeEngine (db_client o)].
Proof.
  intros Hi Hg Hd. apply init_success in Hi.
  destruct Hi as (ts & w1 & w2 & w3 & w4 & w5 & _ & _ & _ & _ & _ & Htile & _ &
                  Htt & _ & Hc1).
  apply generate_yaml_files_inv in Hg.
  inversion Hg as [| | |v1 v2 v3 G1 G2 G3 Hr Hs2]. subst s2. clear Hg.
  unfold dispose_engine in Hd. rewrite call_run in Hd. cbn [world calls] in Hd.
  injection Hd as Hr3 <-. cbn [world calls].
  exists ts, w5, v1, v2. repeat split; try assumption.
  - rewrite <- Hr3. apply surjective_pairing.
  - rewrite Hc1. rewrite <- !app_assoc. reflexivity.
Qed.

End DriverMore.

Section SpecMore.
Import SpecModel.
Local Existing Instance collaborators.

Lemma sample_init_no_tables :
  __init__ "svc" "geo" "postgresql://host/db" (Some []) None false (sample_state [])
  = (inr (sample_object [] [] default_api_blocks
            [QUERYABLES; CRS; FILTER; TILES; STYLES; PROJECTIONS]),
     sample_object_ready (Some [])
       (sample_object [] [] default_api_blocks
          [QUERYABLES; CRS; FILTER; TILES; STYLES; PROJECTIONS]) []).
Proof. reflexivity. Qed.

Lemma init_given_tables_witness :
  target_tables (sample_object [] [] default_api_blocks
                   [QUERYABLES; CRS; FILTER; TILES; STYLES; PROJECTIONS])
    = Some [] /\
  (exists w1 w2,
      DatabaseClient_init "postgresql://host/db" "geo" (world (sample_state []))
        = (inr sample_client, w1) /\
      create_table_config sample_client [] w1 = (inr [], w2)) /\
  calls (sample_object_ready (Some [])
           (sample_object [] [] default_api_blocks
              [QUERYABLES; CRS; FILTER; TILES; STYLES; PROJECTIONS]) [])
  = calls (sample_state []) ++
    [ CDatabaseClient "postgresql://host/db" "geo";
      CCreateTableConfig sample_client [];
      CApiService "svc" [] default_api_blocks;
      CSQLProvider "svc" "LON_LAT" [] "postgresql://host/db" None false;
      CTileProvider "svc" [] ].
Proof.
  exact (init_given_tables (C := collaborators)
           "svc" "geo" "postgresql://host/db" [] None false (sample_state [])
           _ _ sample_init_no_tables).
Defined.

Lemma sample_init_tiles_only :
  __init__ "svc" "geo" "postgresql://host/db" None (Some ["TILES"]) false
    (sample_state [])
  = (inr (sample_object ["parks"; "stations"] sample_model ["TILES"] [TILES]),
     sample_object_ready None
       (sample_object ["parks"; "stations"] sample_model ["TILES"] [TILES])
       ["parks"; "stations"]).
Proof. reflexivity. Qed.

Lemma init_given_api_blocks_witness :
  api_blocks (sample_object ["parks"; "stations"] sample_model ["TILES"] [TILES])
    = ["TILES"] /\
  (exists w w',
      ApiService_init "svc" sample_model ["TILES"] w
      = (inr {| svc_id := "svc"; svc_model := sample_model; svc_flags := [TILES] |},
         w')) /\
  In (CApiService "svc" sample_model ["TILES"])
     (calls (sample_object_ready None
               (sample_object ["parks"; "stations"] sample_model ["TILES"] [TILES])
               ["parks"; "stations"])).
Proof.
  exact (init_given_api_blocks (C := collaborators)
           "svc" "geo" "postgresql://host/db" None "TILES" [] false (sample_state [])
           _ _ sample_init_tiles_only).
Defined.

Lemma init_provider_arguments_witness :
  exists ts w2 w3 w4 w5,
    create_table_config (db_client sample_generator) ts w2
      = (inr (table_config sample_generator), w3) /\
    ApiService_init "svc" (table_config sample_generator)
      (api_blocks sample_generator) w3
      = (inr (service_obj sample_generator), w4) /\
    SQLProvider_init "svc" "LON_LAT" (table_config sample_generator)
      (engine (db_client sample_generator)) None false w4
      = (inr (sql_provider_obj sample_generator), w5) /\
    TileProvider_init "svc" (table_config sample_generator) w5
      = (inr (tile_provider_obj sample_generator), world (sample_ready [])) /\
    docker sample_generator = false.
Proof.
  exact (init_provider_arguments (C := collaborators)
           "svc" "geo" "postgresql://host/db" None None false (sample_state [])
           sample_generator (sample_ready []) (sample_init [])).
Defined.

Lemma init_failure_is_last_call_witness :
  exists c w,
    last [ CDatabaseClient "postgresql://host/db" "nowhere";
           CGetSchemaTables {| cl_conn := "postgresql://host/db";
                               cl_schema := "nowhere" |} ] = Some c /\
    run_call c w = (inl (NotFoundError ["nowhere"]), set_pool true (geo_world [])) /\
    is_create_yaml c = false /\ is_dispose c = false.
Proof.
  exact (init_failure_is_last_call (C := collaborators)
           "svc" "nowhere" "postgresql://host/db" None None false (sample_state [])
           _ _ init_missing_schema).
Defined.

Lemma generate_returns_iff_witness :
  exists w1 w2,
    ApiService_create_yaml (service_obj sample_generator) "out"
      (world (sample_ready [])) = (inr tt, w1) /\
    SQLProvider_create_yaml (sql_provider_obj sample_generator) "out" w1
      = (inr tt, w2) /\
    TileProvider_create_yaml (tile_provider_obj sample_generator) "out" w2
      = (inr tt, world sample_written) /\
    calls sample_written = calls (sample_ready []) ++ yaml_calls sample_generator "out".
Proof.
  exact (proj1 (generate_returns_iff (C := collaborators) sample_generator "out"
                  (sample_ready []) sample_written) sample_generate).
Defined.

Lemma sample_dispose_written :
  dispose_engine sample_generator sample_written
  = (inr tt, snd (dispose_engine sample_generator sample_written)).
Proof. reflexivity. Qed.

Lemma lifecycle_calls_witness :
  exists ts w0 w1 w2,
    target_tables sample_generator = Some ts /\
    TileProvider_init "svc" (table_config sample_generator) w0
      = (inr (tile_provider_obj sample_generator), world (sample_ready [])) /\
    ApiService_create_yaml (service_obj sample_generator) "out"
      (world (sample_ready [])) = (inr tt, w1) /\
    SQLProvider_create_yaml (sql_provider_obj sample_generator) "out" w1
      = (inr tt, w2) /\
    TileProvider_create_yaml (tile_provider_obj sample_generator) "out" w2
      = (inr tt, world sample_written) /\
    DatabaseClient_dispose_engine (db_client sample_generator) (world sample_written)
      = (inr tt, world (snd (dispose_engine sample_generator sample_written))) /\
    calls (snd (dispose_engine sample_generator sample_written))
    = calls (sample_state []) ++ init_calls sample_generator None ts
        ++ yaml_calls sample_generator "out"
        ++ [CDisposeEngine (db_client sample_generator)].
Proof.
  exact (lifecycle_calls (C := collaborators)
           "svc" "geo" "postgresql://host/db" None None false "out" (sample_state [])
           sample_generator (sample_ready []) sample_written _
           (sample_init []) sample_generate sample_dispose_written).
Defined.

End SpecMore.
